(** * The appraisal route of the NFT appraisal oracle

    A shallow embedding of [routes/appraisal.js]: the handler registered with
    [router.post('/')], together with the parts of the JavaScript run time it
    relies on (truthiness, [Math.random], binary64 arithmetic, [Math.floor],
    [Number.prototype.toFixed], [Array.prototype.map]).

    JavaScript numbers are IEEE-754 binary64 values.  Every number the handler
    computes is non-negative and at most 10, so the arithmetic is modelled on
    the non-negative finite doubles, each represented exactly by the integer
    count of units of 2^-1074 (the smallest positive double) it holds.  The
    exact real result of an operation is rounded to nearest, ties to even, to
    53 significant bits, as the hardware does.

    The server file mounts this router under [/api/appraise] behind
    [bodyParser.json()], which is where [req.body] comes from; a request body
    is therefore modelled as the JavaScript value the JSON parser built. *)

From Stdlib Require Import ZArith List String Ascii Bool Lia QArith.
From Stdlib Require Import DecimalString.
Import ListNotations.

Local Open Scope string_scope.
Local Open Scope Z_scope.

(** ** Non-negative binary64 values *)

Module F64.

(** Number of units of 2^-1074 in the value 1. *)
Definition one : Z := 2 ^ 1074.

(** The integer [k] as a count of units. *)
Definition of_Z (k : Z) : Z := k * one.

(** Bits of [x] that do not fit in a 53-bit significand. *)
Definition excess (x : Z) : Z := Z.max 0 (Z.log2 x - 52).

(** [x] units is a (non-negative, finite) double. *)
Definition is_double (x : Z) : Prop :=
  0 <= x /\ x mod 2 ^ excess x = 0.

Definition is_doubleb (x : Z) : bool :=
  (0 <=? x) && (x mod 2 ^ excess x =? 0).

(** Round to nearest, ties to even, keeping 53 significant bits. *)
Definition round (x : Z) : Z :=
  let s := excess x in
  if s =? 0 then x
  else
    let q := x / 2 ^ s in
    let r := x mod 2 ^ s in
    let half := 2 ^ (s - 1) in
    let q' :=
      if r <? half then q
      else if half <? r then q + 1
      else if Z.even q then q else q + 1 in
    q' * 2 ^ s.

(** [x * k] for a small non-negative integer constant [k]. *)
Definition mul_int (x k : Z) : Z := round (x * k).

(** [x + k] for a small non-negative integer constant [k]. *)
Definition add_int (x k : Z) : Z := round (x + of_Z k).

(** [Math.floor(x)]: the largest integer not above [x], again in units. *)
Definition floor (x : Z) : Z := of_Z (x / one).

(** The double [m / 2^e], in units (for [m] below 2^53 and [e] up to 1074). *)
Definition dyadic (m e : Z) : Z := m * 2 ^ (1074 - e).

(** The exact rational value of [x] units. *)
Definition toQ (x : Z) : Q := Qmake x (Z.to_pos one).

End F64.

(** ** JavaScript values *)

(** A Number: not-a-number, an infinity, or a finite double given by its sign
    and its magnitude in units of 2^-1074 ([Finite true 0] is -0). *)
Inductive Number : Type :=
| NaN
| Infinity (negative : bool)
| Finite (negative : bool) (units : Z).

(** The values [JSON.parse] can deliver, and [undefined] for what is absent. *)
#[warnings="-register-all"]
Inductive JsValue : Type :=
| VUndefined
| VNull
| VBool (b : bool)
| VNumber (n : Number)
| VString (s : string)
| VObject (props : list (string * JsValue))
| VArray (elems : list JsValue).

(** The abstract operation ToBoolean, which [!nftContent] negates. *)
Definition ToBoolean (v : JsValue) : bool :=
  match v with
  | VUndefined => false
  | VNull => false
  | VBool b => b
  | VNumber NaN => false
  | VNumber (Infinity _) => true
  | VNumber (Finite _ u) => negb (u =? 0)
  | VString s => negb (String.eqb s EmptyString)
  | VObject _ => true
  | VArray _ => true
  end.

(** Own property lookup in an object's property list. *)
Fixpoint lookup (key : string) (props : list (string * JsValue)) : JsValue :=
  match props with
  | [] => VUndefined
  | (k, v) :: rest => if String.eqb k key then v else lookup key rest
  end.

(** [const { nftContent } = req.body]: destructuring [undefined] or [null]
    throws a TypeError ([None]); a key that is not there reads [undefined]. *)
Definition get_nftContent (body : JsValue) : option JsValue :=
  match body with
  | VUndefined | VNull => None
  | VObject props => Some (lookup "nftContent" props)
  | _ => Some VUndefined
  end.

(** ** The shared randomness source *)

(** [Math.random] is a process-wide generator: [stream] is the sequence of
    doubles it is going to return, [consumed] how many it has returned. *)
Record Rng : Type := mkRng { stream : nat -> Z; consumed : nat }.

(** Computations that read the generator. *)
Definition M (A : Type) : Type := Rng -> A * Rng.

Definition ret {A : Type} (a : A) : M A := fun g => (a, g).

Definition bind {A B : Type} (c : M A) (k : A -> M B) : M B :=
  fun g => let (a, g') := c g in k a g'.

Declare Scope rng_scope.
Delimit Scope rng_scope with rng.
Notation "x <- c ;; k" := (bind c (fun x => k))
  (at level 61, c at next level, right associativity) : rng_scope.
Local Open Scope rng_scope.

Definition Math_random : M Z :=
  fun g => (stream g (consumed g), mkRng (stream g) (S (consumed g))).

(** What [Math.random] promises: a double, at least 0 and below 1. *)
Definition is_draw (r : Z) : Prop := F64.is_double r /\ r < F64.one.

Definition is_drawb (r : Z) : bool := F64.is_doubleb r && (r <? F64.one).

Definition rng_ok (g : Rng) : Prop := forall i : nat, is_draw (stream g i).

(** ** Built-ins the handler calls *)

(** [Array(n).fill(v)]. *)
Definition Array_fill (n : nat) (v : JsValue) : list JsValue := repeat v n.

(** [arr.map(cb)]: the callback runs once per element, in index order. *)
Fixpoint Array_map (cb : JsValue -> M JsValue) (arr : list JsValue)
  : M (list JsValue) :=
  match arr with
  | [] => ret []
  | x :: rest =>
      y <- cb x ;;
      ys <- Array_map cb rest ;;
      ret (y :: ys)
  end.

(** Decimal digits of a non-negative integer. *)
Definition digits (n : Z) : string :=
  NilZero.string_of_uint (N.to_uint (Z.to_N n)).

(** [x.toFixed(f)] for a non-negative finite [x] below 10^21 (the handler's
    argument never exceeds 10): [n] is the integer for which [n / 10^f] is
    closest to the exact value of [x], the larger one on a tie. *)
Definition toFixed_nearest (f : nat) (x : Z) : Z :=
  (2 * 10 ^ Z.of_nat f * x + F64.one) / (2 * F64.one).

(** The digits of [n] with the point before the last [f] of them. *)
Definition toFixed_render (f : nat) (n : Z) : string :=
  let m := if n =? 0 then "0" else digits n in
  match f with
  | O => m
  | _ =>
      let k := String.length m in
      let '(m, k) :=
        if (k <=? f)%nat
        then (String.concat EmptyString (repeat "0" (f + 1 - k)) ++ m, (f + 1)%nat)
        else (m, k) in
      substring 0 (k - f) m ++ "." ++ substring (k - f) f m
  end.

Definition toFixed (f : nat) (x : Z) : string :=
  toFixed_render f (toFixed_nearest f x).

(** ** The route handler *)

Record Response : Type := mkResponse { status : Z; payload : JsValue }.

(** A request either gets a response or the handler throws. *)
Inductive Outcome : Type :=
| Sent (r : Response)
| Threw.

Definition error_body : JsValue :=
  VObject [("error", VString "NFT content required")].

(** The callback of the [map]: [Math.floor(Math.random() * 4) + 7]. *)
Definition dimension_score (r : Z) : Z :=
  F64.add_int (F64.floor (F64.mul_int r 4)) 7.

(** [(Math.random() * 3 + 7).toFixed(1)]. *)
Definition overall_of_draw (r : Z) : string :=
  toFixed 1 (F64.add_int (F64.mul_int r 3) 7).

Definition handler (body : JsValue) : M Outcome :=
  match get_nftContent body with
  | None => ret Threw
  | Some nftContent =>
      if negb (ToBoolean nftContent) then
        ret (Sent (mkResponse 400 error_body))
      else
        r <- Math_random ;;
        let mockScore := overall_of_draw r in
        scores <- Array_map
                    (fun _ => r <- Math_random ;;
                              ret (VNumber (Finite false (dimension_score r))))
                    (Array_fill 9 VNull) ;;
        ret (Sent (mkResponse 200
               (VObject [("scores", VArray scores);
                         ("overall", VString mockScore);
                         ("reason",
                          VString "Automated local appraisal complete")])))
  end.


(** ** Reading a response *)

Definition field (key : string) (v : JsValue) : JsValue :=
  match v with
  | VObject props => lookup key props
  | _ => VUndefined
  end.

Definition out_field (key : string) (o : Outcome) : JsValue :=
  match o with
  | Sent r => field key (payload r)
  | Threw => VUndefined
  end.

(** The [i]-th element of the scores array of the response sent. *)
Definition score_at (o : Outcome) (i : nat) : JsValue :=
  match out_field "scores" o with
  | VArray scores => nth i scores VUndefined
  | _ => VUndefined
  end.

Definition rationale : string := "Automated local appraisal complete".

(** The body of a successful response, from the draws that went into it. *)
Definition appraisal_body (overall_draw : Z) (score_draws : list Z) : JsValue :=
  VObject [("scores",
            VArray (map (fun r => VNumber (Finite false (dimension_score r)))
                        score_draws));
           ("overall", VString (overall_of_draw overall_draw));
           ("reason", VString rationale)].

(** The number [v] is the integer [k]. *)
Definition is_integer (v : JsValue) (k : Z) : Prop :=
  v = VNumber (Finite false (F64.of_Z k)).

Definition all_digits (s : string) : bool :=
  negb (String.eqb s EmptyString) &&
  forallb (fun c => (48 <=? nat_of_ascii c)%nat && (nat_of_ascii c <=? 57)%nat)
          (list_ascii_of_string s).

(** Where the decimal point of [s] is, when it has one. *)
Definition point (s : string) : option nat := index 0 "." s.

(** [s] is digits, a point, and exactly one more digit. *)
Definition one_fraction_digit (s : string) : bool :=
  match point s with
  | None => false
  | Some i =>
      all_digits (substring 0 i s) &&
      all_digits (substring (S i) (String.length s - S i) s) &&
      (String.length s - S i =? 1)%nat
  end.

(** The rational a plain decimal numeral denotes. *)
Definition parse_decimal (s : string) : option Q :=
  match point s with
  | None => None
  | Some i =>
      let a := substring 0 i s in
      let b := substring (S i) (String.length s - S i) s in
      match NilZero.uint_of_string a, NilZero.uint_of_string b with
      | Some ua, Some ub =>
          let den := Pos.pow 10 (Pos.of_nat (String.length b)) in
          Some (Qmake (Z.of_uint ua * Zpos den + Z.of_uint ub) den)
      | _, _ => None
      end
  end.

(** ** Vocabulary of the response contract *)

(** The index of the quarter of [0,1) a draw falls in. *)
Definition quarter (r : Z) : Z := (r * 4) / F64.one.

(** How the tenths between 7.0 and 10.0 are written and read back. *)
Definition tenth_ok (n : Z) : bool :=
  let o := toFixed_render 1 n in
  one_fraction_digit o &&
  match parse_decimal o with
  | Some (Qmake a b) => (a =? n) && (Zpos b =? 10)
  | None => false
  end.

(** The nine draws behind the scores of a successful call, in the order the
    callback reads them: they follow the draw behind the overall score. *)
Definition score_draws (g : Rng) : list Z :=
  map (fun i => stream g (S i + consumed g)%nat) (seq 0 9).

(** A request body [{ "nftContent": v }]. *)
Definition body_with (v : JsValue) : JsValue := VObject [("nftContent", v)].

(** A generator that returns [r0] first and [r] ever after. *)
Definition first_then (r0 r : Z) : Rng :=
  mkRng (fun i => match i with O => r0 | S _ => r end) 0.

(** A generator that keeps returning [r]. *)
Definition constant_rng (r : Z) : Rng := mkRng (fun _ => r) 0.

(** The falsy values a request can carry in nftContent. *)
Definition falsy (v : JsValue) : Prop :=
  v = VUndefined \/ v = VNull \/ v = VString EmptyString \/ v = VBool false \/
  v = VNumber NaN \/ exists sg, v = VNumber (Finite sg 0).

(** The handler answered with the validation error. *)
Definition rejected (body : JsValue) (g : Rng) : Prop :=
  fst (handler body g) = Sent (mkResponse 400 error_body).

(** The order the specification gives: the nine scores from the first nine
    draws, then the overall score from the tenth. *)
Definition spec_order_response (g : Rng) : Response :=
  mkResponse 200
    (appraisal_body (stream g (9 + consumed g))
       (map (fun i => stream g (i + consumed g)%nat) (seq 0 9))).

(** ** Requests in sequence *)

(** Node runs each callback to completion, so the requests reach the handler
    one at a time, all reading the same generator. *)
Fixpoint serve (bodies : list JsValue) : M (list Outcome) :=
  match bodies with
  | [] => ret []
  | b :: rest =>
      o <- handler b ;;
      os <- serve rest ;;
      ret (o :: os)
  end.

(** The request passes the guard [if (!nftContent)]. *)
Definition acceptedb (body : JsValue) : bool :=
  match get_nftContent body with
  | Some v => ToBoolean v
  | None => false
  end.

(** The outcome is a response with status 200. *)
Definition is_appraisal (o : Outcome) : bool :=
  match o with
  | Sent r => status r =? 200
  | Threw => false
  end.

(** The appraisal built from the ten draws that start [10 * k] draws after
    the current one. *)
Definition appraisal_at (g : Rng) (k : nat) : Outcome :=
  Sent (mkResponse 200
          (appraisal_body (stream g (10 * k + consumed g))
             (map (fun i => stream g (S i + (10 * k + consumed g))%nat)
                  (seq 0 9)))).

(** ** The overall score as a number of tenths *)

(** The double [Math.random() * 3 + 7]. *)
Definition overall_sum (r : Z) : Z := F64.add_int (F64.mul_int r 3) 7.

(** The integer [toFixed(1)] picks for it. *)
Definition overall_tenths (r : Z) : Z := toFixed_nearest 1 (overall_sum r).

(** A draw out of the [n]-th tenth's bin, for [n] from 70 to 100. *)
Definition draw_for (n : Z) : Z := F64.dyadic ((n - 70) * 1023 / 30) 10.

Definition draw_for_ok (n : Z) : bool :=
  is_drawb (draw_for n) && (overall_tenths (draw_for n) =? n).

(** A generator whose first draw gives the overall score [n] tenths and
    whose next draws give the scores [ks], each from 7 to 10. *)
Definition rng_for (n : Z) (ks : list Z) : Rng :=
  mkRng (fun i => match i with
                  | O => draw_for n
                  | S j => F64.dyadic (nth j ks 7 - 7) 2
                  end) 0.

(** ** The server file *)

(** [a || b]. *)
Definition logical_or (a b : JsValue) : JsValue :=
  if ToBoolean a then a else b.

(** [process.env[key]]: the variables of the environment are strings. *)
Fixpoint env_get (key : string) (env : list (string * string)) : JsValue :=
  match env with
  | [] => VUndefined
  | (k, v) :: rest => if String.eqb k key then VString v else env_get key rest
  end.

(** [const PORT = process.env.PORT || 7860]. *)
Definition PORT (env : list (string * string)) : JsValue :=
  logical_or (env_get "PORT" env) (VNumber (Finite false (F64.of_Z 7860))).

(** ** Facts about binary64 rounding *)

Module F64Facts.
Import F64.

Lemma one_pos : 0 < one.
Proof. unfold one. apply Z.pow_pos_nonneg; lia. Qed.

Lemma excess_nonneg (x : Z) : 0 <= excess x.
Proof. unfold excess. lia. Qed.

Lemma is_doubleb_spec (x : Z) : is_doubleb x = true <-> is_double x.
Proof.
  unfold is_doubleb, is_double.
  rewrite andb_true_iff, Z.leb_le, Z.eqb_eq. tauto.
Qed.

(** A double is a multiple of the weight of its last significand bit. *)
Lemma double_multiple (x : Z) :
  is_double x -> exists c, x = c * 2 ^ excess x.
Proof.
  intros [_ Hm].
  exists (x / 2 ^ excess x).
  pose proof (Z.div_mod x (2 ^ excess x)) as Hd.
  assert (0 < 2 ^ excess x) by (apply Z.pow_pos_nonneg; [lia | apply excess_nonneg]).
  specialize (Hd ltac:(lia)). lia.
Qed.

Lemma excess_mono (x y : Z) : 0 < x -> x <= y -> excess x <= excess y.
Proof.
  intros Hx Hxy. unfold excess.
  pose proof (Z.log2_le_mono x y Hxy). lia.
Qed.

(** Rounding returns one of the two neighbouring multiples, and goes up only
    when something was cut off. *)
Lemma round_cases (x : Z) :
  0 < excess x ->
  let p := 2 ^ excess x in
  round x = (x / p) * p \/ (round x = (x / p + 1) * p /\ 0 < x mod p).
Proof.
  intros Hs p. unfold round.
  destruct (Z.eqb_spec (excess x) 0) as [E | _]; [lia |].
  fold p.
  assert (Hhalf : 0 < 2 ^ (excess x - 1)) by (apply Z.pow_pos_nonneg; lia).
  destruct (Z.ltb_spec (x mod p) (2 ^ (excess x - 1))); [now left |].
  destruct (Z.ltb_spec (2 ^ (excess x - 1)) (x mod p)); [right; split; [reflexivity | lia] |].
  destruct (Z.even (x / p)); [now left | right; split; [reflexivity | lia]].
Qed.

(** Doubles are fixed points of rounding: an exact result is not changed. *)
Lemma round_double (x : Z) : is_double x -> round x = x.
Proof.
  intros Hd. unfold round.
  destruct (Z.eqb_spec (excess x) 0) as [E | NE]; [reflexivity |].
  destruct Hd as [_ Hm]. rewrite Hm.
  assert (0 < 2 ^ (excess x - 1))
    by (apply Z.pow_pos_nonneg; pose proof (excess_nonneg x); lia).
  destruct (Z.ltb_spec 0 (2 ^ (excess x - 1))); [| lia].
  pose proof (excess_nonneg x).
  assert (0 < 2 ^ excess x) by (apply Z.pow_pos_nonneg; lia).
  pose proof (Z.div_mod x (2 ^ excess x) ltac:(lia)). lia.
Qed.

(** Rounding never crosses a double that lies above the exact result. *)
Lemma round_le (x b : Z) :
  0 <= x -> x <= b -> is_double b -> round x <= b.
Proof.
  intros Hx Hxb Hb.
  pose proof (excess_nonneg x) as Hs.
  destruct (Z.eq_dec (excess x) 0) as [E | NE].
  - unfold round. rewrite E. simpl. exact Hxb.
  - assert (Hp : 0 < 2 ^ excess x) by (apply Z.pow_pos_nonneg; lia).
    pose proof (Z.div_mod x (2 ^ excess x) ltac:(lia)) as Hdm.
    pose proof (Z.mod_pos_bound x (2 ^ excess x) Hp) as Hr.
    destruct (round_cases x ltac:(lia)) as [-> | [-> Hpos]]; [lia |].
    assert (Hx0 : 0 < x).
    { destruct (Z.eq_dec x 0) as [-> | ]; [| lia].
      unfold excess in NE. simpl in NE. lia. }
    pose proof (excess_mono x b Hx0 Hxb) as Hmono.
    destruct (double_multiple b Hb) as [c Hc].
    replace (excess b) with ((excess b - excess x) + excess x) in Hc by lia.
    rewrite Z.pow_add_r in Hc by lia.
    assert (0 < 2 ^ (excess b - excess x)) by (apply Z.pow_pos_nonneg; lia).
    set (p := 2 ^ excess x) in *. set (d := 2 ^ (excess b - excess x)) in *.
    assert (x / p < c * d) by nia.
    nia.
Qed.

(** Nor one that lies below it. *)
Lemma round_ge (x a : Z) :
  is_double a -> a <= x -> a <= round x.
Proof.
  intros Ha Hax.
  pose proof (excess_nonneg x) as Hs.
  destruct (Z.eq_dec (excess x) 0) as [E | NE].
  - unfold round. rewrite E. simpl. exact Hax.
  - assert (Hp : 0 < 2 ^ excess x) by (apply Z.pow_pos_nonneg; lia).
    pose proof (Z.div_mod x (2 ^ excess x) ltac:(lia)) as Hdm.
    pose proof (Z.mod_pos_bound x (2 ^ excess x) Hp) as Hr.
    destruct (round_cases x ltac:(lia)) as [-> | [-> Hpos]]; [| lia].
    assert (Hlx : 52 < Z.log2 x) by (unfold excess in NE, Hs; lia).
    assert (Hx0 : 0 < x).
    { destruct (Z.le_gt_cases x 0) as [Hle | ]; [| lia].
      rewrite (Z.log2_nonpos x Hle) in Hlx. lia. }
    assert (He : excess x = Z.log2 x - 52) by (unfold excess; lia).
    destruct (Z.le_gt_cases (excess x) (excess a)) as [Hge | Hlt].
    + destruct (double_multiple a Ha) as [c Hc].
      replace (excess a) with ((excess a - excess x) + excess x) in Hc by lia.
      rewrite Z.pow_add_r in Hc by lia.
      assert (0 < 2 ^ (excess a - excess x)) by (apply Z.pow_pos_nonneg; lia).
      set (p := 2 ^ excess x) in *. set (d := 2 ^ (excess a - excess x)) in *.
      assert (c * d < x / p + 1) by nia.
      nia.
    + destruct Ha as [Ha0 _].
      assert (Hq0 : 0 <= x / 2 ^ excess x) by (apply Z.div_pos; lia).
      destruct (Z.eq_dec a 0) as [-> | Hane]; [nia |].
      assert (Hla : Z.log2 a < Z.log2 x) by (unfold excess in Hlt; lia).
      pose proof (Z.log2_spec a ltac:(lia)) as [_ Hup].
      pose proof (Z.log2_spec x Hx0) as [Hlow _].
      assert (2 ^ Z.succ (Z.log2 a) <= 2 ^ Z.log2 x)
        by (apply Z.pow_le_mono_r; lia).
      assert (Hsplit : 2 ^ Z.log2 x = 2 ^ 52 * 2 ^ excess x).
      { rewrite <- Z.pow_add_r by lia. f_equal. lia. }
      set (p := 2 ^ excess x) in *.
      assert (2 ^ 52 <= x / p) by (apply Z.div_le_lower_bound; lia).
      nia.
Qed.

(** Multiplying a double by 4 only moves its exponent. *)
Lemma is_double_mul4 (x : Z) : is_double x -> is_double (x * 4).
Proof.
  intros Hd. destruct (double_multiple x Hd) as [c Hc].
  destruct Hd as [H0 _]. split; [lia |].
  destruct (Z.eq_dec x 0) as [-> | Hne]; [reflexivity |].
  assert (Hl : Z.log2 (x * 4) = Z.log2 x + 2).
  { change 4 with (2 ^ 2). rewrite Z.log2_mul_pow2; lia. }
  pose proof (excess_nonneg x). pose proof (excess_nonneg (x * 4)).
  assert (Hle : excess (x * 4) <= excess x + 2) by (unfold excess in *; lia).
  rewrite Hc at 1.
  replace (c * 2 ^ excess x * 4)
    with (c * 2 ^ (excess x + 2 - excess (x * 4)) * 2 ^ excess (x * 4)).
  - apply Z.mod_mul. apply Z.pow_nonzero; lia.
  - rewrite <- Z.mul_assoc, <- Z.pow_add_r by lia.
    replace (excess x + 2 - excess (x * 4) + excess (x * 4)) with (excess x + 2) by lia.
    rewrite Z.pow_add_r by lia. change (2 ^ 2) with 4. lia.
Qed.

End F64Facts.

(** ** Facts about the two formulas *)

Module ScoreFacts.
Import F64 F64Facts.

Lemma of_Z_inj (a b : Z) : of_Z a = of_Z b -> a = b.
Proof. unfold of_Z. pose proof one_pos. nia. Qed.

Lemma small_int_double (k : Z) : 0 <= k <= 10 -> is_double (of_Z k).
Proof.
  intros Hk. apply is_doubleb_spec.
  assert (Hall : forallb (fun n => is_doubleb (of_Z (Z.of_nat n))) (seq 0 11) = true)
    by (vm_compute; reflexivity).
  rewrite forallb_forall in Hall.
  rewrite <- (Z2Nat.id k) by lia.
  apply Hall, in_seq. lia.
Qed.

(** [Math.random() * 4] is exact. *)
Lemma mul4_exact (r : Z) : is_draw r -> mul_int r 4 = r * 4.
Proof.
  intros [Hd _]. unfold mul_int.
  apply round_double, is_double_mul4, Hd.
Qed.

Lemma quarter_range (r : Z) : is_draw r -> 0 <= quarter r <= 3.
Proof.
  intros [[H0 _] H1]. unfold quarter. pose proof one_pos. split.
  - apply Z.div_pos; lia.
  - assert (r * 4 / one < 4) by (apply Z.div_lt_upper_bound; lia). lia.
Qed.

Lemma dimension_score_quarter (r : Z) :
  is_draw r -> dimension_score r = of_Z (quarter r + 7).
Proof.
  intros Hr. unfold dimension_score.
  rewrite (mul4_exact r Hr). unfold floor, add_int. fold (quarter r).
  pose proof (quarter_range r Hr) as Hq.
  replace (of_Z (quarter r) + of_Z 7) with (of_Z (quarter r + 7))
    by (unfold of_Z; lia).
  apply round_double, small_int_double. lia.
Qed.

(** The quarter is [k] exactly on the interval from k/4 up to (k+1)/4. *)
Lemma quarter_iff (r k : Z) :
  quarter r = k <->
  (Qmake k 4 <= toQ r /\ toQ r < Qmake (k + 1) 4)%Q.
Proof.
  unfold Qle, Qlt, toQ, quarter. cbn [Qnum Qden].
  pose proof one_pos as Hone.
  rewrite (Z2Pos.id one Hone).
  pose proof (Z.div_mod (r * 4) one ltac:(lia)) as Hdm.
  pose proof (Z.mod_pos_bound (r * 4) one Hone) as Hr.
  split.
  - intros <-. nia.
  - intros [Hlo Hhi]. symmetry. apply (Z.div_unique _ _ k (r * 4 - one * k)); lia.
Qed.

(** The value handed to [toFixed] lies between 7 and 10, both included:
    the sum is rounded, and just below 10 it rounds to 10. *)
Lemma overall_value_range (r : Z) :
  is_draw r ->
  of_Z 7 <= add_int (mul_int r 3) 7 <= of_Z 10.
Proof.
  intros [[H0 _] H1]. unfold add_int, mul_int.
  assert (Hlo : 0 <= round (r * 3)).
  { apply round_ge; [apply (small_int_double 0); lia | lia]. }
  assert (Hhi : round (r * 3) <= of_Z 3).
  { apply round_le; [lia | unfold of_Z; lia | apply small_int_double; lia]. }
  split.
  - apply round_ge; [apply small_int_double; lia | lia].
  - apply round_le; [unfold of_Z in *; pose proof one_pos; lia
                    | unfold of_Z in *; lia | apply small_int_double; lia].
Qed.

Lemma nearest_tenth_range (x : Z) :
  of_Z 7 <= x <= of_Z 10 -> 70 <= toFixed_nearest 1 x <= 100.
Proof.
  unfold of_Z, toFixed_nearest. intros [Hlo Hhi].
  change (10 ^ Z.of_nat 1) with 10. pose proof one_pos. split.
  - apply Z.div_le_lower_bound; lia.
  - assert ((2 * 10 * x + one) / (2 * one) < 101)
      by (apply Z.div_lt_upper_bound; lia).
    lia.
Qed.

Lemma tenths_render (n : Z) : 70 <= n <= 100 -> tenth_ok n = true.
Proof.
  intros Hn.
  assert (Hall : forallb (fun k => tenth_ok (Z.of_nat k)) (seq 70 31) = true)
    by (vm_compute; reflexivity).
  rewrite forallb_forall in Hall.
  rewrite <- (Z2Nat.id n) by lia.
  apply Hall, in_seq. lia.
Qed.

Lemma tenths_written (n : Z) :
  70 <= n <= 100 ->
  one_fraction_digit (toFixed_render 1 n) = true /\
  parse_decimal (toFixed_render 1 n) = Some (Qmake n 10).
Proof.
  intros Hn.
  pose proof (tenths_render n Hn) as Hok. unfold tenth_ok in Hok.
  apply andb_true_iff in Hok. destruct Hok as [Hfmt Hparse].
  split; [exact Hfmt |].
  destruct (parse_decimal (toFixed_render 1 n)) as [[a b] |]; [| discriminate].
  apply andb_true_iff in Hparse. destruct Hparse as [Ha Hb].
  apply Z.eqb_eq in Ha, Hb. subst a. f_equal. f_equal.
  congruence.
Qed.

Lemma overall_of_draw_spec (r : Z) :
  is_draw r ->
  exists n, 70 <= n <= 100 /\
            one_fraction_digit (overall_of_draw r) = true /\
            parse_decimal (overall_of_draw r) = Some (Qmake n 10).
Proof.
  intros Hr.
  pose proof (nearest_tenth_range _ (overall_value_range r Hr)) as Hn.
  eexists. split; [exact Hn |].
  exact (tenths_written _ Hn).
Qed.

End ScoreFacts.

(** ** Facts about the handler *)

Module HandlerFacts.
Import F64 F64Facts ScoreFacts.

Lemma handler_truthy (body v : JsValue) (g : Rng) :
  get_nftContent body = Some v ->
  ToBoolean v = true ->
  handler body g =
    (Sent (mkResponse 200
             (appraisal_body (stream g (consumed g)) (score_draws g))),
     mkRng (stream g) (10 + consumed g)).
Proof.
  intros Hget Htrue. unfold handler. rewrite Hget, Htrue.
  destruct g as [st n]. reflexivity.
Qed.

Lemma handler_falsy (body v : JsValue) (g : Rng) :
  get_nftContent body = Some v ->
  ToBoolean v = false ->
  handler body g = (Sent (mkResponse 400 error_body), g).
Proof.
  intros Hget Hfalse. unfold handler. rewrite Hget, Hfalse. reflexivity.
Qed.

Lemma is_drawb_spec (r : Z) : is_drawb r = true <-> is_draw r.
Proof.
  unfold is_drawb, is_draw.
  rewrite andb_true_iff, is_doubleb_spec, Z.ltb_lt. tauto.
Qed.

Lemma score_draws_length (g : Rng) : List.length (score_draws g) = 9%nat.
Proof. reflexivity. Qed.

Lemma score_draws_ok (g : Rng) : rng_ok g -> Forall is_draw (score_draws g).
Proof.
  intros Hg. unfold score_draws. apply Forall_forall.
  intros r Hin. apply in_map_iff in Hin. destruct Hin as [i [<- _]]. apply Hg.
Qed.

Lemma overall_field_body (a : Z) (l : list Z) :
  field "overall" (appraisal_body a l) = VString (overall_of_draw a).
Proof. reflexivity. Qed.

Lemma scores_field_body (a : Z) (l : list Z) :
  field "scores" (appraisal_body a l)
  = VArray (map (fun r => VNumber (Finite false (dimension_score r))) l).
Proof. reflexivity. Qed.

(** The overall score at three particular draws: 0, 1/2 and 63/64. *)
Lemma overall_at_zero : overall_of_draw 0 = "7.0".
Proof. vm_compute. reflexivity. Qed.

Lemma overall_at_half : overall_of_draw (dyadic 1 1) = "8.5".
Proof. vm_compute. reflexivity. Qed.

Lemma overall_at_63_64 : overall_of_draw (dyadic 63 6) = "10.0".
Proof. vm_compute. reflexivity. Qed.

Lemma nonempty_truthy (s : string) : s <> EmptyString -> ToBoolean (VString s) = true.
Proof.
  intros Hs. simpl. destruct (String.eqb_spec s EmptyString); [contradiction | reflexivity].
Qed.

Lemma ToBoolean_false_iff (v : JsValue) : ToBoolean v = false <-> falsy v.
Proof.
  unfold falsy. split.
  - destruct v as [| | b | n | s | props | elems]; simpl; intros H; try discriminate; auto.
    + destruct b; [discriminate | auto 6].
    + destruct n as [| sg | sg u]; try discriminate; [auto 6 |].
      destruct (Z.eqb_spec u 0) as [Hu | ]; [| discriminate].
      do 5 right. exists sg. now rewrite Hu.
    + destruct (String.eqb_spec s EmptyString) as [Hs | ]; [rewrite Hs; auto | discriminate].
  - intros [-> | [-> | [-> | [-> | [-> | [sg ->]]]]]]; reflexivity.
Qed.

(** What an accepted request is answered with, field by field. *)
Lemma overall_truthy (body v : JsValue) (g : Rng) :
  get_nftContent body = Some v ->
  ToBoolean v = true ->
  out_field "overall" (fst (handler body g))
  = VString (overall_of_draw (stream g (consumed g))).
Proof.
  intros Hget Hb. rewrite (handler_truthy body v g Hget Hb).
  cbn [fst out_field payload]. apply overall_field_body.
Qed.

Lemma scores_truthy (body v : JsValue) (g : Rng) :
  get_nftContent body = Some v ->
  ToBoolean v = true ->
  out_field "scores" (fst (handler body g))
  = VArray (map (fun r => VNumber (Finite false (dimension_score r)))
                (score_draws g)).
Proof.
  intros Hget Hb. rewrite (handler_truthy body v g Hget Hb).
  cbn [fst out_field payload]. apply scores_field_body.
Qed.

Lemma score_at_truthy (body v : JsValue) (g : Rng) (i : nat) :
  get_nftContent body = Some v ->
  ToBoolean v = true ->
  (i < 9)%nat ->
  score_at (fst (handler body g)) i
  = VNumber (Finite false (dimension_score (stream g (S i + consumed g)))).
Proof.
  intros Hget Hb Hi. unfold score_at.
  rewrite (scores_truthy body v g Hget Hb). unfold score_draws.
  do 9 (destruct i as [| i]; [reflexivity |]). lia.
Qed.

(** The nine score draws of two generators agree when they agree one by one. *)
Lemma score_draws_ext (g1 g2 : Rng) :
  (forall i, (i < 9)%nat ->
             stream g1 (S i + consumed g1) = stream g2 (S i + consumed g2)) ->
  score_draws g1 = score_draws g2.
Proof.
  intros Hsame. unfold score_draws. apply map_ext_in.
  intros i Hin. apply in_seq in Hin. apply Hsame. lia.
Qed.

End HandlerFacts.

(** ** The response contract *)

Import F64 F64Facts ScoreFacts HandlerFacts.

(** C1: for every request whose nftContent is a non-empty string, the
    response has status 200 and its scores field is a sequence of exactly 9
    integers, each one between 7 and 10 inclusive. *)
Theorem scores_nine_integers_in_range
  (body : JsValue) (s : string) (g : Rng) :
  rng_ok g ->
  get_nftContent body = Some (VString s) ->
  s <> EmptyString ->
  exists resp g' scores,
    handler body g = (Sent resp, g') /\
    status resp = 200 /\
    field "scores" (payload resp) = VArray scores /\
    List.length scores = 9%nat /\
    Forall (fun v => exists k, is_integer v k /\ 7 <= k <= 10) scores.
Proof.
  intros Hg Hget Hs.
  rewrite (handler_truthy body _ g Hget (nonempty_truthy s Hs)).
  do 3 eexists. split; [reflexivity |].
  split; [reflexivity |]. split; [reflexivity |].
  split; [now rewrite length_map |].
  apply Forall_map.
  eapply Forall_impl; [| apply (score_draws_ok g Hg)].
  intros r Hr. exists (quarter r + 7). split.
  - unfold is_integer. now rewrite (dimension_score_quarter r Hr).
  - pose proof (quarter_range r Hr). lia.
Qed.

Lemma scores_nine_integers_in_range_witness :
  exists resp g' scores,
    handler (body_with (VString "ipfs://abc123")) (constant_rng (dyadic 1 1))
      = (Sent resp, g') /\
    status resp = 200 /\
    field "scores" (payload resp) = VArray scores /\
    List.length scores = 9%nat /\
    Forall (fun v => exists k, is_integer v k /\ 7 <= k <= 10) scores.
Proof.
  apply (scores_nine_integers_in_range
           (body_with (VString "ipfs://abc123")) "ipfs://abc123"
           (constant_rng (dyadic 1 1))).
  - intros i. apply is_drawb_spec. vm_compute. reflexivity.
  - reflexivity.
  - discriminate.
Defined.

(** C2, as the code has it: for every request whose nftContent is a non-empty
    string and every draw in [0,1), the overall field is written with exactly
    one fractional digit and parses to a decimal between 7.0 and 10.0, both
    ends included. *)
Theorem overall_one_digit_in_closed_range
  (body : JsValue) (s : string) (g : Rng) :
  rng_ok g ->
  get_nftContent body = Some (VString s) ->
  s <> EmptyString ->
  exists resp g' o v,
    handler body g = (Sent resp, g') /\
    field "overall" (payload resp) = VString o /\
    one_fraction_digit o = true /\
    parse_decimal o = Some v /\
    (7 <= v /\ v <= 10)%Q.
Proof.
  intros Hg Hget Hs.
  rewrite (handler_truthy body _ g Hget (nonempty_truthy s Hs)).
  destruct (overall_of_draw_spec _ (Hg (consumed g))) as [n [Hn [Hfmt Hparse]]].
  do 4 eexists. split; [reflexivity |].
  split; [reflexivity |]. split; [exact Hfmt |]. split; [exact Hparse |].
  unfold Qle; cbn [Qnum Qden]. lia.
Qed.

Lemma overall_one_digit_in_closed_range_witness :
  exists resp g' o v,
    handler (body_with (VString "x")) (constant_rng (dyadic 1 3))
      = (Sent resp, g') /\
    field "overall" (payload resp) = VString o /\
    one_fraction_digit o = true /\
    parse_decimal o = Some v /\
    (7 <= v /\ v <= 10)%Q.
Proof.
  apply (overall_one_digit_in_closed_range
           (body_with (VString "x")) "x" (constant_rng (dyadic 1 3))).
  - intros i. apply is_drawb_spec. vm_compute. reflexivity.
  - reflexivity.
  - discriminate.
Defined.

(** C2, as stated, fails: when [Math.random] returns 63/64 the sum is
    9.953125, which [toFixed(1)] writes as 10.0, outside [7.0, 10.0). *)
Lemma overall_reaches_ten :
  ~ (forall (body : JsValue) (s : string) (g : Rng),
       rng_ok g ->
       get_nftContent body = Some (VString s) ->
       s <> EmptyString ->
       exists resp g' o v,
         handler body g = (Sent resp, g') /\
         field "overall" (payload resp) = VString o /\
         one_fraction_digit o = true /\
         parse_decimal o = Some v /\
         (7 <= v /\ v < 10)%Q).
Proof.
  intros Hclaim.
  destruct (Hclaim (body_with (VString "x")) "x" (constant_rng (dyadic 63 6)))
    as [resp [g' [o [v [Hrun [Ho [_ [Hv [_ Hlt]]]]]]]]].
  - intros i. apply is_drawb_spec. vm_compute. reflexivity.
  - reflexivity.
  - discriminate.
  - rewrite (handler_truthy (body_with (VString "x")) (VString "x") _ eq_refl eq_refl) in Hrun.
    apply (f_equal (fun res => out_field "overall" (fst res))) in Hrun.
    cbn [fst out_field payload] in Hrun.
    rewrite overall_field_body, Ho in Hrun.
    change (stream (constant_rng (dyadic 63 6)) (consumed (constant_rng (dyadic 63 6))))
      with (dyadic 63 6) in Hrun.
    rewrite overall_at_63_64 in Hrun. injection Hrun as <-.
    assert (Hp : parse_decimal "10.0" = Some (Qmake 100 10))
      by (vm_compute; reflexivity).
    rewrite Hp in Hv. injection Hv as <-.
    unfold Qlt in Hlt. cbn [Qnum Qden] in Hlt. lia.
Qed.

(** C3, as the code has it: the operation fails exactly when nftContent is
    falsy, that is absent, null, the empty string, or one of false, 0, -0 and
    NaN; on failure it answers with status 400 and the body
    [{"error": "NFT content required"}], and for every non-empty string it
    does not fail but answers with status 200. *)
Theorem rejected_iff_falsy (body v : JsValue) (g : Rng) :
  get_nftContent body = Some v ->
  (rejected body g <-> falsy v) /\
  (falsy v ->
   exists resp, fst (handler body g) = Sent resp /\
                status resp = 400 /\
                payload resp = VObject [("error", VString "NFT content required")]) /\
  (forall s, v = VString s -> s <> EmptyString ->
             ~ rejected body g /\
             exists resp, fst (handler body g) = Sent resp /\ status resp = 200).
Proof.
  intros Hget. unfold rejected. split; [| split].
  - rewrite <- ToBoolean_false_iff. split.
    + destruct (ToBoolean v) eqn:Hb; [| reflexivity].
      rewrite (handler_truthy body v g Hget Hb). cbn [fst]. discriminate.
    + intros Hb. now rewrite (handler_falsy body v g Hget Hb).
  - intros Hf. apply ToBoolean_false_iff in Hf.
    rewrite (handler_falsy body v g Hget Hf).
    eexists. repeat split.
  - intros s -> Hs.
    rewrite (handler_truthy body _ g Hget (nonempty_truthy s Hs)). cbn [fst].
    split; [discriminate |]. eexists. split; reflexivity.
Qed.

Lemma rejected_iff_falsy_witness :
  (rejected (body_with (VString EmptyString)) (constant_rng 0) <-> falsy (VString EmptyString)) /\
  (falsy (VString EmptyString) ->
   exists resp,
     fst (handler (body_with (VString EmptyString)) (constant_rng 0)) = Sent resp /\
     status resp = 400 /\
     payload resp = VObject [("error", VString "NFT content required")]) /\
  (forall s, VString EmptyString = VString s -> s <> EmptyString ->
             ~ rejected (body_with (VString EmptyString)) (constant_rng 0) /\
             exists resp,
               fst (handler (body_with (VString EmptyString)) (constant_rng 0)) = Sent resp /\
               status resp = 200).
Proof.
  apply (rejected_iff_falsy (body_with (VString EmptyString)) (VString EmptyString) (constant_rng 0)).
  reflexivity.
Defined.

(** C3, as stated, fails: a request with nftContent 0 is answered with the
    400 error although nftContent is neither absent, null nor the empty
    string. *)
Lemma zero_content_is_rejected :
  ~ (forall (body v : JsValue) (g : Rng),
       get_nftContent body = Some v ->
       (rejected body g <->
        v = VUndefined \/ v = VNull \/ v = VString EmptyString)).
Proof.
  intros Hclaim.
  destruct (Hclaim (body_with (VNumber (Finite false 0)))
                   (VNumber (Finite false 0)) (constant_rng 0) eq_refl)
    as [Honly _].
  destruct (Honly eq_refl) as [H | [H | H]]; discriminate.
Qed.

(** C4: on a request whose nftContent is absent, null or empty the generator
    is left as it was (no draw is consumed) and the response is the error
    alone, with no scores, overall or reason in it. *)
Theorem invalid_request_draws_nothing (body v : JsValue) (g : Rng) :
  get_nftContent body = Some v ->
  v = VUndefined \/ v = VNull \/ v = VString EmptyString ->
  handler body g = (Sent (mkResponse 400 error_body), g) /\
  consumed (snd (handler body g)) = consumed g /\
  out_field "scores" (fst (handler body g)) = VUndefined /\
  out_field "overall" (fst (handler body g)) = VUndefined /\
  out_field "reason" (fst (handler body g)) = VUndefined.
Proof.
  intros Hget Hv.
  assert (Hb : ToBoolean v = false)
    by (destruct Hv as [-> | [-> | ->]]; reflexivity).
  rewrite (handler_falsy body v g Hget Hb). repeat split.
Qed.

Lemma invalid_request_draws_nothing_witness :
  handler (VObject []) (constant_rng (dyadic 1 1))
    = (Sent (mkResponse 400 error_body), constant_rng (dyadic 1 1)) /\
  consumed (snd (handler (VObject []) (constant_rng (dyadic 1 1))))
    = consumed (constant_rng (dyadic 1 1)) /\
  out_field "scores" (fst (handler (VObject []) (constant_rng (dyadic 1 1))))
    = VUndefined /\
  out_field "overall" (fst (handler (VObject []) (constant_rng (dyadic 1 1))))
    = VUndefined /\
  out_field "reason" (fst (handler (VObject []) (constant_rng (dyadic 1 1))))
    = VUndefined.
Proof.
  apply (invalid_request_draws_nothing (VObject []) VUndefined
           (constant_rng (dyadic 1 1))).
  - reflexivity.
  - left. reflexivity.
Defined.

(** C5: every successful response carries the same reason, the string
    "Automated local appraisal complete", whatever the request and whatever
    the generator returns. *)
Theorem reason_is_fixed (body : JsValue) (g g' : Rng) (resp : Response) :
  handler body g = (Sent resp, g') ->
  status resp = 200 ->
  field "reason" (payload resp) = VString "Automated local appraisal complete".
Proof.
  intros Hrun Hok. unfold handler in Hrun.
  destruct (get_nftContent body) as [v |] eqn:Hget; [| discriminate].
  destruct (ToBoolean v) eqn:Hb; cbn [negb] in Hrun.
  - fold (handler body) in Hrun.
    pose proof (handler_truthy body v g Hget Hb) as Heq.
    unfold handler in Heq. rewrite Hget, Hb in Heq. cbn [negb] in Heq.
    rewrite Heq in Hrun. injection Hrun as <- _. reflexivity.
  - injection Hrun as <- _. discriminate.
Qed.

Lemma reason_is_fixed_witness :
  field "reason"
        (appraisal_body (dyadic 1 1) (score_draws (constant_rng (dyadic 1 1))))
  = VString "Automated local appraisal complete".
Proof.
  apply (reason_is_fixed (body_with (VString "x")) (constant_rng (dyadic 1 1))
           (mkRng (fun _ => dyadic 1 1) 10)
           (mkResponse 200
              (appraisal_body (dyadic 1 1)
                 (score_draws (constant_rng (dyadic 1 1)))))).
  - reflexivity.
  - reflexivity.
Defined.

(** C6: each of the 9 dimension scores of a response is drawn from
    {7, 8, 9, 10} through its own draw.  For every accepted request the scores
    array has 9 elements; the i-th one is an integer from 7 to 10, and it is
    7 + k exactly when the draw behind it (the one i + 1 places after the
    first draw of the call) lies in the interval from k/4 up to (k+1)/4,
    whose length is 1/4; and each of the four values is sent at each place
    under some legal state of the generator. *)
Theorem score_quarters
  (body v : JsValue) (g : Rng) (i : nat) (k : Z) :
  rng_ok g ->
  get_nftContent body = Some v ->
  ToBoolean v = true ->
  (i < 9)%nat ->
  0 <= k <= 3 ->
  (exists scores,
     out_field "scores" (fst (handler body g)) = VArray scores /\
     List.length scores = 9%nat) /\
  (exists j, 0 <= j <= 3 /\
             is_integer (score_at (fst (handler body g)) i) (7 + j)) /\
  (is_integer (score_at (fst (handler body g)) i) (7 + k) <->
   (Qmake k 4 <= toQ (stream g (S i + consumed g)) /\
    toQ (stream g (S i + consumed g)) < Qmake (k + 1) 4)%Q) /\
  (exists gk, rng_ok gk /\
              is_integer (score_at (fst (handler body gk)) i) (7 + k)) /\
  (Qmake (k + 1) 4 - Qmake k 4 == Qmake 1 4)%Q.
Proof.
  intros Hg Hget Hb Hi Hk.
  pose proof (Hg (S i + consumed g)%nat) as Hr.
  pose proof (dimension_score_quarter _ Hr) as Hs.
  pose proof (quarter_range _ Hr) as Hq.
  split; [| split; [| split; [| split]]].
  - rewrite (scores_truthy body v g Hget Hb). eexists. split; [reflexivity |].
    now rewrite length_map.
  - rewrite (score_at_truthy body v g i Hget Hb Hi).
    exists (quarter (stream g (S i + consumed g))). split; [exact Hq |].
    unfold is_integer. rewrite Hs. do 3 f_equal. lia.
  - rewrite (score_at_truthy body v g i Hget Hb Hi).
    rewrite <- quarter_iff. unfold is_integer. rewrite Hs. split.
    + intros H.
      apply (f_equal (fun x => match x with
                               | VNumber (Finite _ u) => u
                               | _ => 0
                               end)) in H.
      pose proof (of_Z_inj _ _ H) as Hk'. lia.
    + intros <-. do 3 f_equal. lia.
  - exists (constant_rng (dyadic k 2)).
    assert (Hcases : k = 0 \/ k = 1 \/ k = 2 \/ k = 3) by lia.
    assert (Hdraw : is_draw (dyadic k 2) /\
                    dimension_score (dyadic k 2) = of_Z (7 + k)).
    { destruct Hcases as [-> | [-> | [-> | ->]]];
        (split; [apply is_drawb_spec |]; vm_compute; reflexivity). }
    destruct Hdraw as [Hd Hv]. split; [intros n; exact Hd |].
    rewrite (score_at_truthy body v _ i Hget Hb Hi).
    unfold is_integer. cbn [constant_rng stream]. now rewrite Hv.
  - unfold Qeq, Qminus, Qplus, Qopp. cbn [Qnum Qden]. lia.
Qed.

Lemma score_quarters_witness :
  (exists scores,
     out_field "scores"
       (fst (handler (body_with (VString "x")) (constant_rng (dyadic 5 3))))
     = VArray scores /\
     List.length scores = 9%nat) /\
  (exists j, 0 <= j <= 3 /\
             is_integer
               (score_at (fst (handler (body_with (VString "x"))
                                       (constant_rng (dyadic 5 3)))) 4)
               (7 + j)) /\
  (is_integer
     (score_at (fst (handler (body_with (VString "x"))
                             (constant_rng (dyadic 5 3)))) 4)
     (7 + 2) <->
   (Qmake 2 4
    <= toQ (stream (constant_rng (dyadic 5 3))
                   (5 + consumed (constant_rng (dyadic 5 3)))) /\
    toQ (stream (constant_rng (dyadic 5 3))
                (5 + consumed (constant_rng (dyadic 5 3))))
    < Qmake (2 + 1) 4)%Q) /\
  (exists gk, rng_ok gk /\
              is_integer
                (score_at (fst (handler (body_with (VString "x")) gk)) 4)
                (7 + 2)) /\
  (Qmake (2 + 1) 4 - Qmake 2 4 == Qmake 1 4)%Q.
Proof.
  apply (score_quarters (body_with (VString "x")) (VString "x")
           (constant_rng (dyadic 5 3)) 4 2).
  - intros n. apply is_drawb_spec. vm_compute. reflexivity.
  - reflexivity.
  - reflexivity.
  - lia.
  - lia.
Defined.

(** C7, as the code has it: on every accepted input the handler first
    computes the overall score from the first draw, then the nine dimension
    scores from the next nine draws in index order, then attaches the fixed
    rationale; it consumes ten draws in all. *)
Theorem overall_drawn_before_scores (body v : JsValue) (g : Rng) :
  get_nftContent body = Some v ->
  ToBoolean v = true ->
  exists resp g' scores,
    handler body g = (Sent resp, g') /\
    status resp = 200 /\
    field "overall" (payload resp)
      = VString (overall_of_draw (stream g (consumed g))) /\
    field "scores" (payload resp) = VArray scores /\
    List.length scores = 9%nat /\
    (forall i, (i < 9)%nat ->
       nth i scores VUndefined
       = VNumber (Finite false
                    (dimension_score (stream g (S i + consumed g))))) /\
    field "reason" (payload resp) = VString rationale /\
    stream g' = stream g /\
    consumed g' = (10 + consumed g)%nat.
Proof.
  intros Hget Hb. rewrite (handler_truthy body v g Hget Hb).
  do 3 eexists. split; [reflexivity |].
  split; [reflexivity |]. split; [reflexivity |]. split; [reflexivity |].
  split; [reflexivity |]. split; [| repeat split].
  intros i Hi.
  do 9 (destruct i as [| i]; [reflexivity |]). lia.
Qed.

Lemma overall_drawn_before_scores_witness :
  exists resp g' scores,
    handler (body_with (VString "x")) (first_then 0 (dyadic 1 1))
      = (Sent resp, g') /\
    status resp = 200 /\
    field "overall" (payload resp)
      = VString (overall_of_draw
                   (stream (first_then 0 (dyadic 1 1))
                           (consumed (first_then 0 (dyadic 1 1))))) /\
    field "scores" (payload resp) = VArray scores /\
    List.length scores = 9%nat /\
    (forall i, (i < 9)%nat ->
       nth i scores VUndefined
       = VNumber (Finite false
                    (dimension_score
                       (stream (first_then 0 (dyadic 1 1))
                               (S i + consumed (first_then 0 (dyadic 1 1))))))) /\
    field "reason" (payload resp) = VString rationale /\
    stream g' = stream (first_then 0 (dyadic 1 1)) /\
    consumed g' = (10 + consumed (first_then 0 (dyadic 1 1)))%nat.
Proof.
  apply (overall_drawn_before_scores (body_with (VString "x")) (VString "x")
           (first_then 0 (dyadic 1 1))).
  - reflexivity.
  - reflexivity.
Defined.

(** C7, as stated, fails: with a generator that returns 0 and then 1/2 for
    ever, the handler answers overall 7.0 (from the first draw) and nine
    scores of 9, where the stated order would give overall 8.5 and a first
    score of 7. *)
Lemma scores_not_drawn_first :
  fst (handler (body_with (VString "x")) (first_then 0 (dyadic 1 1)))
  <> Sent (spec_order_response (first_then 0 (dyadic 1 1))).
Proof.
  rewrite (handler_truthy (body_with (VString "x")) (VString "x") _ eq_refl eq_refl).
  cbn [fst]. unfold spec_order_response. intros H.
  apply (f_equal (out_field "overall")) in H.
  cbn [out_field payload] in H. rewrite !overall_field_body in H.
  change (stream (first_then 0 (dyadic 1 1)) (consumed (first_then 0 (dyadic 1 1))))
    with 0 in H.
  change (stream (first_then 0 (dyadic 1 1)) (9 + consumed (first_then 0 (dyadic 1 1))))
    with (dyadic 1 1) in H.
  rewrite overall_at_zero, overall_at_half in H. discriminate.
Qed.

(** C8: the overall score is independent of the dimension scores.  In the
    response to an accepted request overall is computed from the first draw
    of the call and from nothing else, and the i-th score from the draw i + 1
    places later and from nothing else.  So two runs that agree on the first
    draw give the same overall whatever the nine draws behind the scores are,
    two runs that agree on those nine draws give the same scores whatever the
    first draw is, and overall is no function of the scores: two legal runs
    have the same scores and different overall. *)
Theorem overall_independent_of_scores (body v : JsValue) (g1 g2 : Rng) :
  get_nftContent body = Some v ->
  ToBoolean v = true ->
  (out_field "overall" (fst (handler body g1))
   = VString (overall_of_draw (stream g1 (consumed g1))) /\
   forall i, (i < 9)%nat ->
     score_at (fst (handler body g1)) i
     = VNumber (Finite false
                  (dimension_score (stream g1 (S i + consumed g1))))) /\
  (stream g1 (consumed g1) = stream g2 (consumed g2) ->
   out_field "overall" (fst (handler body g1))
   = out_field "overall" (fst (handler body g2))) /\
  ((forall i, (i < 9)%nat ->
      stream g1 (S i + consumed g1) = stream g2 (S i + consumed g2)) ->
   out_field "scores" (fst (handler body g1))
   = out_field "scores" (fst (handler body g2))) /\
  exists ga gb,
    rng_ok ga /\ rng_ok gb /\
    out_field "scores" (fst (handler body ga))
      = out_field "scores" (fst (handler body gb)) /\
    out_field "overall" (fst (handler body ga))
      <> out_field "overall" (fst (handler body gb)).
Proof.
  intros Hget Hb. split; [| split; [| split]].
  - split; [exact (overall_truthy body v g1 Hget Hb) |].
    intros i Hi. exact (score_at_truthy body v g1 i Hget Hb Hi).
  - intros Hsame.
    rewrite (overall_truthy body v g1 Hget Hb), (overall_truthy body v g2 Hget Hb).
    now rewrite Hsame.
  - intros Hsame.
    rewrite (scores_truthy body v g1 Hget Hb), (scores_truthy body v g2 Hget Hb).
    now rewrite (score_draws_ext g1 g2 Hsame).
  - exists (first_then 0 (dyadic 1 1)), (first_then (dyadic 1 1) (dyadic 1 1)).
    split; [intros [| i]; apply is_drawb_spec; vm_compute; reflexivity |].
    split; [intros [| i]; apply is_drawb_spec; vm_compute; reflexivity |].
    rewrite (scores_truthy body v (first_then 0 (dyadic 1 1)) Hget Hb).
    rewrite (scores_truthy body v (first_then (dyadic 1 1) (dyadic 1 1)) Hget Hb).
    rewrite (overall_truthy body v (first_then 0 (dyadic 1 1)) Hget Hb).
    rewrite (overall_truthy body v (first_then (dyadic 1 1) (dyadic 1 1)) Hget Hb).
    split; [reflexivity |].
    change (stream (first_then 0 (dyadic 1 1)) (consumed (first_then 0 (dyadic 1 1))))
      with 0.
    change (stream (first_then (dyadic 1 1) (dyadic 1 1))
                   (consumed (first_then (dyadic 1 1) (dyadic 1 1))))
      with (dyadic 1 1).
    rewrite overall_at_zero, overall_at_half. discriminate.
Qed.

Lemma overall_independent_of_scores_witness :
  out_field "overall"
    (fst (handler (body_with (VString "x")) (first_then (dyadic 1 2) 0)))
  = out_field "overall"
      (fst (handler (body_with (VString "x"))
                    (first_then (dyadic 1 2) (dyadic 3 2)))) /\
  out_field "scores"
    (fst (handler (body_with (VString "x")) (first_then 0 (dyadic 3 2))))
  = out_field "scores"
      (fst (handler (body_with (VString "x"))
                    (first_then (dyadic 1 2) (dyadic 3 2)))).
Proof.
  split.
  - apply (overall_independent_of_scores
             (body_with (VString "x")) (VString "x")
             (first_then (dyadic 1 2) 0) (first_then (dyadic 1 2) (dyadic 3 2))
             eq_refl eq_refl).
    reflexivity.
  - apply (overall_independent_of_scores
             (body_with (VString "x")) (VString "x")
             (first_then 0 (dyadic 3 2)) (first_then (dyadic 1 2) (dyadic 3 2))
             eq_refl eq_refl).
    intros i Hi. reflexivity.
Defined.

(** C9: the operation is not deterministic: for the content "x" there are
    two states of the generator, both legal, under which the two successful
    responses differ. *)
Theorem identical_requests_may_differ :
  exists (s : string) (g1 g2 : Rng) (resp1 resp2 : Response),
    s <> EmptyString /\ rng_ok g1 /\ rng_ok g2 /\
    fst (handler (body_with (VString s)) g1) = Sent resp1 /\
    fst (handler (body_with (VString s)) g2) = Sent resp2 /\
    status resp1 = 200 /\ status resp2 = 200 /\
    resp1 <> resp2.
Proof.
  exists "x", (constant_rng 0), (constant_rng (dyadic 1 1)).
  exists (mkResponse 200 (appraisal_body 0 (score_draws (constant_rng 0)))).
  exists (mkResponse 200
            (appraisal_body (dyadic 1 1) (score_draws (constant_rng (dyadic 1 1))))).
  split; [discriminate |].
  split; [intros i; apply is_drawb_spec; vm_compute; reflexivity |].
  split; [intros i; apply is_drawb_spec; vm_compute; reflexivity |].
  split; [now rewrite (handler_truthy (body_with (VString "x")) (VString "x") _ eq_refl eq_refl) |].
  split; [now rewrite (handler_truthy (body_with (VString "x")) (VString "x") _ eq_refl eq_refl) |].
  split; [reflexivity |]. split; [reflexivity |].
  intros H. apply (f_equal (fun r => field "overall" (payload r))) in H.
  cbn [payload] in H. rewrite !overall_field_body in H.
  rewrite overall_at_zero, overall_at_half in H. discriminate.
Qed.

(** C10: validation is truthiness of nftContent.  Every falsy value
    (undefined, null, the empty string, 0, false, NaN) is answered with the
    400 error, and every truthy value of any type (a non-zero number, an
    object, an array, a non-empty string, also one of blanks only) is
    accepted and appraised. *)
Theorem validation_is_truthiness (body v : JsValue) (g : Rng) :
  get_nftContent body = Some v ->
  (ToBoolean v = false ->
   handler body g = (Sent (mkResponse 400 error_body), g)) /\
  (ToBoolean v = true ->
   handler body g
   = (Sent (mkResponse 200
              (appraisal_body (stream g (consumed g)) (score_draws g))),
      mkRng (stream g) (10 + consumed g))) /\
  ToBoolean VUndefined = false /\
  ToBoolean VNull = false /\
  ToBoolean (VString EmptyString) = false /\
  (forall sg, ToBoolean (VNumber (Finite sg 0)) = false) /\
  ToBoolean (VBool false) = false /\
  ToBoolean (VNumber NaN) = false /\
  (forall sg u, u <> 0 -> ToBoolean (VNumber (Finite sg u)) = true) /\
  (forall props, ToBoolean (VObject props) = true) /\
  (forall elems, ToBoolean (VArray elems) = true) /\
  (forall s, s <> EmptyString -> ToBoolean (VString s) = true) /\
  ToBoolean (VString "   ") = true.
Proof.
  intros Hget.
  split; [intros Hb; exact (handler_falsy body v g Hget Hb) |].
  split; [intros Hb; exact (handler_truthy body v g Hget Hb) |].
  repeat split.
  - intros sg u Hu. simpl. destruct (Z.eqb_spec u 0); [contradiction | reflexivity].
  - exact nonempty_truthy.
Qed.

Lemma validation_is_truthiness_witness :
  handler (body_with (VNumber (Finite false 0))) (constant_rng 0)
  = (Sent (mkResponse 400 error_body), constant_rng 0) /\
  handler (body_with (VArray [VNull])) (constant_rng 0)
  = (Sent (mkResponse 200 (appraisal_body 0 (score_draws (constant_rng 0)))),
     mkRng (fun _ => 0) 10).
Proof.
  split.
  - apply (validation_is_truthiness
             (body_with (VNumber (Finite false 0))) (VNumber (Finite false 0))
             (constant_rng 0) eq_refl).
    reflexivity.
  - apply (validation_is_truthiness
             (body_with (VArray [VNull])) (VArray [VNull])
             (constant_rng 0) eq_refl).
    reflexivity.
Defined.

(** ** More on rounding: it keeps the order *)

Module RoundOrder.
Import F64 F64Facts.

Lemma round_zero : round 0 = 0.
Proof. reflexivity. Qed.

Lemma pow2_double (k : Z) : 0 <= k -> is_double (2 ^ k).
Proof.
  intros Hk. split; [apply Z.pow_nonneg; lia |].
  unfold excess. rewrite Z.log2_pow2 by lia.
  destruct (Z.max_spec 0 (k - 52)) as [[Hm ->] | [Hm ->]].
  - replace k with (52 + (k - 52)) at 1 by lia.
    rewrite Z.pow_add_r by lia. apply Z.mod_mul. apply Z.pow_nonzero; lia.
  - rewrite Z.pow_0_r. apply Z.mod_1_r.
Qed.

(** With the low bits [r] cut off a significand [q], the choice rounding makes. *)
Lemma round_unfold (x : Z) :
  0 < excess x ->
  round x =
  (if x mod 2 ^ excess x <? 2 ^ (excess x - 1) then x / 2 ^ excess x
   else if 2 ^ (excess x - 1) <? x mod 2 ^ excess x then x / 2 ^ excess x + 1
   else if Z.even (x / 2 ^ excess x) then x / 2 ^ excess x
   else x / 2 ^ excess x + 1) * 2 ^ excess x.
Proof.
  intros Hs. unfold round.
  destruct (Z.eqb_spec (excess x) 0); [lia | reflexivity].
Qed.

Lemma round_mono (x y : Z) : 0 <= x -> x <= y -> round x <= round y.
Proof.
  intros Hx Hxy.
  destruct (Z.eq_dec x 0) as [-> | Hx0].
  { rewrite round_zero. apply round_ge; [apply (pow2_double 0) || idtac | lia].
    split; [lia | reflexivity]. }
  pose proof (Z.log2_le_mono x y Hxy) as Hlog.
  pose proof (Z.log2_nonneg y) as Hly.
  pose proof (Z.log2_spec x ltac:(lia)) as [Hxl Hxu].
  pose proof (Z.log2_spec y ltac:(lia)) as [Hyl Hyu].
  destruct (Z.eq_dec (Z.log2 x) (Z.log2 y)) as [Heq | Hne].
  - assert (Hs : excess x = excess y) by (unfold excess; now rewrite Heq).
    destruct (Z.eq_dec (excess x) 0) as [E | NE].
    + unfold round. rewrite <- Hs, E. exact Hxy.
    + pose proof (excess_nonneg x).
      rewrite (round_unfold x) by lia. rewrite (round_unfold y) by lia.
      rewrite <- Hs.
      assert (Hp : 0 < 2 ^ excess x) by (apply Z.pow_pos_nonneg; lia).
      pose proof (Z.div_mod x (2 ^ excess x) ltac:(lia)) as Hdx.
      pose proof (Z.div_mod y (2 ^ excess x) ltac:(lia)) as Hdy.
      pose proof (Z.mod_pos_bound x (2 ^ excess x) Hp) as Hrx.
      pose proof (Z.mod_pos_bound y (2 ^ excess x) Hp) as Hry.
      pose proof (Z.div_le_mono x y (2 ^ excess x) Hp Hxy) as Hq.
      set (p := 2 ^ excess x) in *. set (h := 2 ^ (excess x - 1)) in *.
      set (qx := x / p) in *. set (qy := y / p) in *.
      set (rx := x mod p) in *. set (ry := y mod p) in *.
      apply Z.mul_le_mono_nonneg_r; [lia |].
      destruct (Z.eq_dec qx qy) as [Hqq | Hqq].
      * rewrite <- Hqq in *.
        destruct (Z.ltb_spec rx h), (Z.ltb_spec h rx), (Z.ltb_spec ry h),
          (Z.ltb_spec h ry), (Z.even qx); lia.
      * destruct (Z.ltb_spec rx h), (Z.ltb_spec h rx), (Z.ltb_spec ry h),
          (Z.ltb_spec h ry), (Z.even qx), (Z.even qy); lia.
  - assert (Hd : is_double (2 ^ Z.log2 y)) by (apply pow2_double; lia).
    assert (2 ^ Z.succ (Z.log2 x) <= 2 ^ Z.log2 y) by (apply Z.pow_le_mono_r; lia).
    apply Z.le_trans with (2 ^ Z.log2 y).
    + apply round_le; [lia | lia | exact Hd].
    + apply round_ge; [exact Hd | lia].
Qed.

End RoundOrder.

(** ** Facts about the overall score as tenths *)

Module OverallFacts.
Import F64 F64Facts ScoreFacts HandlerFacts RoundOrder.

Lemma zero_double : is_double 0.
Proof. split; [lia | reflexivity]. Qed.

Lemma overall_of_draw_tenths (r : Z) :
  overall_of_draw r = toFixed_render 1 (overall_tenths r).
Proof. unfold overall_of_draw, toFixed, overall_tenths, overall_sum. reflexivity. Qed.

Lemma overall_sum_mono (r1 r2 : Z) :
  0 <= r1 -> r1 <= r2 -> overall_sum r1 <= overall_sum r2.
Proof.
  intros H0 Hle. unfold overall_sum, add_int, mul_int.
  assert (0 <= round (r1 * 3)) by (apply round_ge; [exact zero_double | lia]).
  assert (round (r1 * 3) <= round (r2 * 3)) by (apply round_mono; lia).
  pose proof one_pos.
  apply round_mono; unfold of_Z; lia.
Qed.

Lemma overall_tenths_mono (r1 r2 : Z) :
  0 <= r1 -> r1 <= r2 -> overall_tenths r1 <= overall_tenths r2.
Proof.
  intros H0 Hle. unfold overall_tenths, toFixed_nearest.
  pose proof (overall_sum_mono r1 r2 H0 Hle). pose proof one_pos.
  apply Z.div_le_mono; [lia |].
  change (10 ^ Z.of_nat 1) with 10. lia.
Qed.

Lemma overall_tenths_range (r : Z) : is_draw r -> 70 <= overall_tenths r <= 100.
Proof.
  intros Hr. apply nearest_tenth_range, overall_value_range, Hr.
Qed.

Lemma overall_parses (r : Z) :
  is_draw r ->
  parse_decimal (overall_of_draw r) = Some (Qmake (overall_tenths r) 10).
Proof.
  intros Hr. rewrite overall_of_draw_tenths.
  apply tenths_written, overall_tenths_range, Hr.
Qed.

(** Different tenths are written differently. *)
Lemma overall_string_tenths (r : Z) (n : Z) :
  is_draw r -> 70 <= n <= 100 ->
  overall_of_draw r = toFixed_render 1 n -> overall_tenths r = n.
Proof.
  intros Hr Hn Heq.
  pose proof (overall_parses r Hr) as Hp. rewrite Heq in Hp.
  destruct (tenths_written n Hn) as [_ Hpn]. rewrite Hpn in Hp.
  now injection Hp as ->.
Qed.

Lemma draw_nonneg (r : Z) : is_draw r -> 0 <= r.
Proof. intros [[H _] _]. exact H. Qed.

Lemma tenths_at_1_64 : overall_tenths (dyadic 1 6) = 70.
Proof. vm_compute. reflexivity. Qed.

Lemma tenths_at_63_64 : overall_tenths (dyadic 63 6) = 100.
Proof. vm_compute. reflexivity. Qed.

Lemma tenths_at_18_1024 : overall_tenths (dyadic 18 10) = 71.
Proof. vm_compute. reflexivity. Qed.

Lemma tenths_at_51_1024 : overall_tenths (dyadic 51 10) = 71.
Proof. vm_compute. reflexivity. Qed.

Lemma sum_at_top3 : overall_sum (dyadic (2 ^ 53 - 3) 53) = of_Z 10.
Proof. vm_compute. reflexivity. Qed.

Lemma sum_at_top4 : overall_sum (dyadic (2 ^ 53 - 4) 53) < of_Z 10.
Proof. vm_compute. reflexivity. Qed.

(** From 1/2 on, the draws are the multiples of 2^-53. *)
Lemma upper_draws_grid (r : Z) :
  is_draw r -> dyadic 1 1 <= r -> exists c, r = dyadic c 53.
Proof.
  intros [Hd Hlt] Hhalf. unfold dyadic in *.
  change (1074 - 1) with 1073 in Hhalf. change (1074 - 53) with 1021.
  unfold one in Hlt.
  assert (Hlog : Z.log2 r = 1073).
  { apply Z.log2_unique; [lia |]. change (1073 + 1) with 1074. lia. }
  destruct (double_multiple r Hd) as [c Hc].
  unfold excess in Hc. rewrite Hlog in Hc.
  change (Z.max 0 (1073 - 52)) with 1021 in Hc.
  now exists c.
Qed.

Lemma draw_for_spec (n : Z) :
  70 <= n <= 100 -> is_draw (draw_for n) /\ overall_tenths (draw_for n) = n.
Proof.
  intros Hn.
  assert (Hall : forallb (fun k => draw_for_ok (Z.of_nat k)) (seq 70 31) = true)
    by (vm_compute; reflexivity).
  rewrite forallb_forall in Hall.
  assert (Hok : draw_for_ok n = true).
  { rewrite <- (Z2Nat.id n) by lia. apply Hall, in_seq. lia. }
  unfold draw_for_ok in Hok. apply andb_true_iff in Hok.
  destruct Hok as [Hd Ht]. apply is_drawb_spec in Hd. apply Z.eqb_eq in Ht.
  now split.
Qed.

(** The draw (k - 7) / 4 gives the score [k]. *)
Lemma score_at_quarter (k : Z) :
  7 <= k <= 10 ->
  is_draw (dyadic (k - 7) 2) /\ dimension_score (dyadic (k - 7) 2) = of_Z k.
Proof.
  intros Hk.
  assert (Hcases : k = 7 \/ k = 8 \/ k = 9 \/ k = 10) by lia.
  destruct Hcases as [-> | [-> | [-> | ->]]];
    (split; [apply is_drawb_spec |]; vm_compute; reflexivity).
Qed.

End OverallFacts.

(** ** Facts about requests in sequence *)

Module ServeFacts.
Import HandlerFacts.

Lemma serve_cons (b : JsValue) (rest : list JsValue) (g : Rng) :
  serve (b :: rest) g =
  (fst (handler b g) :: fst (serve rest (snd (handler b g))),
   snd (serve rest (snd (handler b g)))).
Proof.
  change (serve (b :: rest) g)
    with (let (o, g') := handler b g in
          let (os, g'') := serve rest g' in (o :: os, g'')).
  destruct (handler b g) as [o g']. cbn [fst snd].
  destruct (serve rest g') as [os g'']. reflexivity.
Qed.

Lemma handler_accepted (body : JsValue) (g : Rng) :
  acceptedb body = true ->
  handler body g = (appraisal_at g 0, mkRng (stream g) (10 + consumed g)).
Proof.
  unfold acceptedb. intros Hacc.
  destruct (get_nftContent body) as [v |] eqn:Hget; [| discriminate].
  exact (handler_truthy body v g Hget Hacc).
Qed.

Lemma handler_not_accepted (body : JsValue) (g : Rng) :
  acceptedb body = false ->
  is_appraisal (fst (handler body g)) = false /\ snd (handler body g) = g.
Proof.
  unfold acceptedb, handler. intros Hacc.
  destruct (get_nftContent body) as [v |]; [rewrite Hacc |]; split; reflexivity.
Qed.

Lemma appraisal_at_shift (g : Rng) (k : nat) :
  appraisal_at (mkRng (stream g) (10 + consumed g)) k = appraisal_at g (S k).
Proof.
  unfold appraisal_at. cbn [stream consumed].
  replace (10 * k + (10 + consumed g))%nat with (10 * S k + consumed g)%nat by lia.
  reflexivity.
Qed.

End ServeFacts.

(** ** Further properties of the handler and of the server file *)

Import OverallFacts ServeFacts RoundOrder.

(** X1: the handler throws exactly when [req.body] is undefined or null, and
    then leaves the generator alone; in every other case it sends a response
    whose status is 400 or 200, and a body that is not an object (an array, a
    string, a number, a boolean) gets the 400 error without a draw. *)
Theorem handler_throws_iff_no_body (body : JsValue) (g : Rng) :
  (fst (handler body g) = Threw <-> body = VUndefined \/ body = VNull) /\
  (fst (handler body g) = Threw -> snd (handler body g) = g) /\
  (forall resp, fst (handler body g) = Sent resp ->
                status resp = 400 \/ status resp = 200) /\
  match body with
  | VUndefined | VNull | VObject _ => True
  | _ => handler body g = (Sent (mkResponse 400 error_body), g)
  end.
Proof.
  assert (Hcases :
            (get_nftContent body = None /\ (body = VUndefined \/ body = VNull)) \/
            (exists v, get_nftContent body = Some v /\
                       body <> VUndefined /\ body <> VNull)).
  { destruct body; simpl; try (left; split; [reflexivity | auto]; fail);
      right; eexists; (split; [reflexivity | split; discriminate]). }
  split; [| split; [| split]].
  - destruct Hcases as [[Hget Hb] | [v [Hget [H1 H2]]]].
    + unfold handler. rewrite Hget. cbn [fst ret]. tauto.
    + destruct (ToBoolean v) eqn:Hv.
      * rewrite (handler_truthy body v g Hget Hv). cbn [fst].
        split; [discriminate | intros [? | ?]; contradiction].
      * rewrite (handler_falsy body v g Hget Hv). cbn [fst].
        split; [discriminate | intros [? | ?]; contradiction].
  - destruct Hcases as [[Hget Hb] | [v [Hget _]]].
    + unfold handler. rewrite Hget. reflexivity.
    + destruct (ToBoolean v) eqn:Hv.
      * rewrite (handler_truthy body v g Hget Hv). discriminate.
      * rewrite (handler_falsy body v g Hget Hv). reflexivity.
  - intros resp. destruct Hcases as [[Hget Hb] | [v [Hget _]]].
    + unfold handler. rewrite Hget. discriminate.
    + destruct (ToBoolean v) eqn:Hv.
      * rewrite (handler_truthy body v g Hget Hv). cbn [fst].
        intros H. injection H as <-. right. reflexivity.
      * rewrite (handler_falsy body v g Hget Hv). cbn [fst].
        intros H. injection H as <-. left. reflexivity.
  - destruct body; try exact I; reflexivity.
Qed.

(** X2: the appraisal never reads the content.  Two requests that both pass
    the guard get the same response and leave the generator in the same
    state, whatever their contents are. *)
Theorem appraisal_ignores_content (body1 body2 : JsValue) (g : Rng) :
  acceptedb body1 = true ->
  acceptedb body2 = true ->
  handler body1 g = handler body2 g.
Proof.
  intros H1 H2.
  now rewrite (handler_accepted body1 g H1), (handler_accepted body2 g H2).
Qed.

Lemma appraisal_ignores_content_witness :
  handler (body_with (VString "ipfs://abc123")) (constant_rng (dyadic 1 2))
  = handler (VObject [("id", VNull); ("nftContent", VArray [])])
            (constant_rng (dyadic 1 2)).
Proof.
  apply (appraisal_ignores_content
           (body_with (VString "ipfs://abc123"))
           (VObject [("id", VNull); ("nftContent", VArray [])])
           (constant_rng (dyadic 1 2))).
  - reflexivity.
  - reflexivity.
Defined.


(** X4: rejected requests are invisible to the others.  The appraisals a
    sequence of requests gets, and the state it leaves the generator in, are
    those of the sequence with the rejected and the throwing requests left
    out. *)
Theorem rejected_requests_leave_no_trace (bodies : list JsValue) (g : Rng) :
  filter is_appraisal (fst (serve bodies g))
  = fst (serve (filter acceptedb bodies) g) /\
  snd (serve bodies g) = snd (serve (filter acceptedb bodies) g).
Proof.
  revert g. induction bodies as [| b rest IH]; intros g.
  - split; reflexivity.
  - rewrite serve_cons. cbn [fst snd filter].
    destruct (acceptedb b) eqn:Hacc.
    + rewrite serve_cons. rewrite (handler_accepted b g Hacc). cbn [fst snd].
      destruct (IH (mkRng (stream g) (10 + consumed g))) as [Ho Hg].
      change (is_appraisal (appraisal_at g 0)) with true. cbn iota.
      now rewrite Ho, Hg.
    + destruct (handler_not_accepted b g Hacc) as [-> ->].
      apply IH.
Qed.

(** X5: when every request of a sequence passes the guard, the k-th one
    (counting from 0) is answered from the draws 10k to 10k+9: overall from
    the first of them, the nine scores from the rest. *)
Theorem kth_request_reads_its_own_ten_draws (bodies : list JsValue) (g : Rng) :
  forallb acceptedb bodies = true ->
  fst (serve bodies g)
  = map (appraisal_at g) (seq 0 (List.length bodies)).
Proof.
  revert g. induction bodies as [| b rest IH]; intros g Hall.
  - reflexivity.
  - cbn [forallb] in Hall. apply andb_true_iff in Hall. destruct Hall as [Hb Hrest].
    rewrite serve_cons. rewrite (handler_accepted b g Hb). cbn [fst snd].
    rewrite (IH _ Hrest). cbn [List.length seq map]. f_equal.
    rewrite <- seq_shift, map_map. apply map_ext. intros k.
    apply appraisal_at_shift.
Qed.

Lemma kth_request_reads_its_own_ten_draws_witness :
  fst (serve [body_with (VString "a"); body_with (VBool true)]
             (constant_rng (dyadic 1 2)))
  = map (appraisal_at (constant_rng (dyadic 1 2)))
        (seq 0 (List.length [body_with (VString "a"); body_with (VBool true)])).
Proof.
  apply (kth_request_reads_its_own_ten_draws
           [body_with (VString "a"); body_with (VBool true)]
           (constant_rng (dyadic 1 2))).
  reflexivity.
Defined.

(** X6: the overall score never goes down when the draw goes up: for two
    draws in [0,1) with the first at most the second, the decimal the first
    overall parses to is at most the one the second parses to. *)
Theorem overall_nondecreasing (r1 r2 : Z) :
  is_draw r1 ->
  is_draw r2 ->
  r1 <= r2 ->
  exists v1 v2,
    parse_decimal (overall_of_draw r1) = Some v1 /\
    parse_decimal (overall_of_draw r2) = Some v2 /\
    (v1 <= v2)%Q.
Proof.
  intros H1 H2 Hle.
  exists (Qmake (overall_tenths r1) 10), (Qmake (overall_tenths r2) 10).
  split; [exact (overall_parses r1 H1) |].
  split; [exact (overall_parses r2 H2) |].
  pose proof (overall_tenths_mono r1 r2 (draw_nonneg r1 H1) Hle).
  unfold Qle. cbn [Qnum Qden]. lia.
Qed.

Lemma overall_nondecreasing_witness :
  exists v1 v2,
    parse_decimal (overall_of_draw (dyadic 1 2)) = Some v1 /\
    parse_decimal (overall_of_draw (dyadic 3 2)) = Some v2 /\
    (v1 <= v2)%Q.
Proof.
  apply (overall_nondecreasing (dyadic 1 2) (dyadic 3 2)).
  - apply is_drawb_spec. vm_compute. reflexivity.
  - apply is_drawb_spec. vm_compute. reflexivity.
  - vm_compute. discriminate.
Defined.

(** X7: each of the 31 values 7.0, 7.1, ..., 10.0 is the overall score of
    some draw in [0,1). *)
Theorem every_tenth_is_reached (n : Z) :
  70 <= n <= 100 ->
  exists r,
    is_draw r /\
    overall_of_draw r = toFixed_render 1 n /\
    parse_decimal (overall_of_draw r) = Some (Qmake n 10).
Proof.
  intros Hn. destruct (draw_for_spec n Hn) as [Hd Ht].
  exists (draw_for n). split; [exact Hd |].
  rewrite overall_of_draw_tenths, Ht.
  split; [reflexivity | apply tenths_written, Hn].
Qed.

Lemma every_tenth_is_reached_witness :
  exists r,
    is_draw r /\
    overall_of_draw r = toFixed_render 1 83 /\
    parse_decimal (overall_of_draw r) = Some (Qmake 83 10).
Proof.
  apply (every_tenth_is_reached 83). lia.
Defined.

(** X8: the two end values are not rare: every draw up to 1/64 gives the
    overall "7.0" and every draw from 63/64 on gives "10.0". *)
Theorem end_values_have_room (r : Z) :
  is_draw r ->
  (r <= dyadic 1 6 -> overall_of_draw r = "7.0") /\
  (dyadic 63 6 <= r -> overall_of_draw r = "10.0").
Proof.
  intros Hr. pose proof (overall_tenths_range r Hr) as Hrange.
  pose proof (draw_nonneg r Hr) as H0.
  rewrite overall_of_draw_tenths. split; intros Hle.
  - pose proof (overall_tenths_mono r (dyadic 1 6) H0 Hle) as Hm.
    rewrite tenths_at_1_64 in Hm.
    replace (overall_tenths r) with 70 by lia. reflexivity.
  - assert (0 <= dyadic 63 6) by (vm_compute; discriminate).
    pose proof (overall_tenths_mono (dyadic 63 6) r ltac:(assumption) Hle) as Hm.
    rewrite tenths_at_63_64 in Hm.
    replace (overall_tenths r) with 100 by lia. reflexivity.
Qed.

Lemma end_values_have_room_witness :
  (dyadic 127 7 <= dyadic 1 6 -> overall_of_draw (dyadic 127 7) = "7.0") /\
  (dyadic 63 6 <= dyadic 127 7 -> overall_of_draw (dyadic 127 7) = "10.0").
Proof.
  apply (end_values_have_room (dyadic 127 7)).
  apply is_drawb_spec. vm_compute. reflexivity.
Defined.

(** X9: the values of overall are not equally likely.  "7.0" comes from
    draws below 18/1024 only, while every draw from 18/1024 to 51/1024, a
    range almost twice as long, gives "7.1". *)
Theorem end_bin_is_half_a_bin (r : Z) :
  is_draw r ->
  (overall_of_draw r = "7.0" -> r < dyadic 18 10) /\
  (dyadic 18 10 <= r <= dyadic 51 10 -> overall_of_draw r = "7.1").
Proof.
  intros Hr. pose proof (draw_nonneg r Hr) as H0. split.
  - intros H70.
    assert (Ht : overall_tenths r = 70)
      by (apply (overall_string_tenths r 70 Hr); [lia | exact H70]).
    destruct (Z.lt_ge_cases r (dyadic 18 10)) as [Hlt | Hge]; [exact Hlt |].
    assert (0 <= dyadic 18 10) by (vm_compute; discriminate).
    pose proof (overall_tenths_mono (dyadic 18 10) r ltac:(assumption) Hge) as Hm.
    rewrite tenths_at_18_1024 in Hm. lia.
  - intros [Hlo Hhi].
    assert (0 <= dyadic 18 10) by (vm_compute; discriminate).
    pose proof (overall_tenths_mono (dyadic 18 10) r ltac:(assumption) Hlo) as H1.
    pose proof (overall_tenths_mono r (dyadic 51 10) H0 Hhi) as H2.
    rewrite tenths_at_18_1024 in H1. rewrite tenths_at_51_1024 in H2.
    rewrite overall_of_draw_tenths.
    replace (overall_tenths r) with 71 by lia. reflexivity.
Qed.

Lemma end_bin_is_half_a_bin_witness :
  (overall_of_draw (dyadic 1 5) = "7.0" -> dyadic 1 5 < dyadic 18 10) /\
  (dyadic 18 10 <= dyadic 1 5 <= dyadic 51 10 ->
   overall_of_draw (dyadic 1 5) = "7.1").
Proof.
  apply (end_bin_is_half_a_bin (dyadic 1 5)).
  apply is_drawb_spec. vm_compute. reflexivity.
Defined.

(** X10: the sum [Math.random() * 3 + 7] is below 10 as a real number for
    every draw, but as a double it is exactly 10 for the three largest draws,
    those from 1 - 3 * 2^-53 on, and for no other draw. *)
Theorem sum_is_ten_at_top_draws (r : Z) :
  is_draw r ->
  r * 3 + of_Z 7 < of_Z 10 /\
  (overall_sum r = of_Z 10 <-> dyadic (2 ^ 53 - 3) 53 <= r).
Proof.
  intros Hr. pose proof (draw_nonneg r Hr) as H0.
  split; [destruct Hr as [_ Hlt]; unfold of_Z; lia |].
  assert (Hpos : 0 <= dyadic (2 ^ 53 - 3) 53) by (vm_compute; discriminate).
  split.
  - intros Hten.
    destruct (Z.lt_ge_cases r (dyadic (2 ^ 53 - 3) 53)) as [Hlt | Hge]; [| exact Hge].
    exfalso.
    assert (Hle4 : r <= dyadic (2 ^ 53 - 4) 53).
    { destruct (Z.le_gt_cases r (dyadic (2 ^ 53 - 4) 53)) as [Hle | Hgt]; [exact Hle |].
      assert (Hhalf : dyadic 1 1 <= r).
      { apply Z.le_trans with (dyadic (2 ^ 53 - 4) 53); [| lia].
        vm_compute. discriminate. }
      destruct (upper_draws_grid r Hr Hhalf) as [c ->].
      unfold dyadic in *.
      assert (0 < 2 ^ (1074 - 53)) by (apply Z.pow_pos_nonneg; lia).
      nia. }
    pose proof (overall_sum_mono r _ H0 Hle4) as Hm.
    pose proof sum_at_top4. lia.
  - intros Hge.
    pose proof (overall_sum_mono _ r Hpos Hge) as Hm.
    rewrite sum_at_top3 in Hm.
    pose proof (overall_value_range r Hr) as [_ Hhi].
    fold (overall_sum r) in Hhi. lia.
Qed.

Lemma sum_is_ten_at_top_draws_witness :
  dyadic (2 ^ 53 - 1) 53 * 3 + of_Z 7 < of_Z 10 /\
  (overall_sum (dyadic (2 ^ 53 - 1) 53) = of_Z 10 <->
   dyadic (2 ^ 53 - 3) 53 <= dyadic (2 ^ 53 - 1) 53).
Proof.
  apply (sum_is_ten_at_top_draws (dyadic (2 ^ 53 - 1) 53)).
  apply is_drawb_spec. vm_compute. reflexivity.
Defined.

(** X11: the server listens on 7860 exactly when the environment has no
    PORT or an empty one; any non-empty PORT, "0" included, is used as the
    string it is. *)
Theorem port_defaults_to_7860 (env : list (string * string)) :
  (PORT env = VNumber (Finite false (of_Z 7860)) <->
   env_get "PORT" env = VUndefined \/ env_get "PORT" env = VString EmptyString) /\
  (forall s, env_get "PORT" env = VString s -> s <> EmptyString ->
             PORT env = VString s) /\
  PORT (("PORT", "0") :: env) = VString "0".
Proof.
  assert (Hget : env_get "PORT" env = VUndefined \/
                 exists s, env_get "PORT" env = VString s).
  { induction env as [| [k v] rest IH]; [left; reflexivity |].
    cbn [env_get]. destruct (String.eqb k "PORT"); [right; now exists v | exact IH]. }
  unfold PORT, logical_or. split; [| split].
  - destruct Hget as [-> | [s ->]].
    + cbn [ToBoolean]. tauto.
    + cbn [ToBoolean]. destruct (String.eqb_spec s EmptyString) as [-> | Hs]; cbn [negb].
      * tauto.
      * split; [discriminate |].
        intros [H | H]; [discriminate | injection H as ->; contradiction].
  - intros s -> Hs. now rewrite (nonempty_truthy s Hs).
  - reflexivity.
Qed.

(** X12: every combination occurs.  For each overall value from 7.0 to 10.0
    and each list of nine scores from 7 to 10 there is a legal state of the
    generator in which every accepted request is answered with exactly that
    overall and those scores. *)
Theorem every_response_is_reachable (n : Z) (ks : list Z) :
  70 <= n <= 100 ->
  List.length ks = 9%nat ->
  Forall (fun k => 7 <= k <= 10) ks ->
  rng_ok (rng_for n ks) /\
  forall body,
    acceptedb body = true ->
    fst (handler body (rng_for n ks))
    = Sent (mkResponse 200
              (VObject [("scores",
                         VArray (map (fun k => VNumber (Finite false (of_Z k))) ks));
                        ("overall", VString (toFixed_render 1 n));
                        ("reason", VString rationale)])).
Proof.
  intros Hn Hlen Hks. destruct (draw_for_spec n Hn) as [Hd Ht]. split.
  - intros [| j]; cbn [rng_for stream]; [exact Hd |].
    apply score_at_quarter.
    destruct (Nat.lt_ge_cases j (List.length ks)) as [Hlt | Hge].
    + rewrite Forall_forall in Hks. apply Hks, nth_In, Hlt.
    + rewrite (nth_overflow ks 7 Hge). lia.
  - intros body Hacc. rewrite (handler_accepted body _ Hacc). cbn [fst].
    unfold appraisal_at, appraisal_body.
    rewrite overall_of_draw_tenths.
    do 9 (destruct ks as [| ? ks]; [discriminate |]).
    destruct ks; [| discriminate].
    repeat match goal with
           | H : Forall _ (_ :: _) |- _ => inversion H; subst; clear H
           end.
    cbn [rng_for stream consumed map seq nth Nat.add Nat.mul].
    rewrite Ht.
    repeat match goal with
           | H : 7 <= ?k <= 10 |- _ =>
               rewrite (proj2 (score_at_quarter k H)); clear H
           end.
    reflexivity.
Qed.

Lemma every_response_is_reachable_witness :
  rng_ok (rng_for 70 [10; 10; 10; 10; 10; 10; 10; 10; 10]) /\
  forall body,
    acceptedb body = true ->
    fst (handler body (rng_for 70 [10; 10; 10; 10; 10; 10; 10; 10; 10]))
    = Sent (mkResponse 200
              (VObject [("scores",
                         VArray (map (fun k => VNumber (Finite false (of_Z k)))
                                     [10; 10; 10; 10; 10; 10; 10; 10; 10]));
                        ("overall", VString (toFixed_render 1 70));
                        ("reason", VString rationale)])).
Proof.
  apply (every_response_is_reachable 70 [10; 10; 10; 10; 10; 10; 10; 10; 10]).
  - lia.
  - reflexivity.
  - repeat constructor; lia.
Defined.
